(** * BluePyOpt examples: the ExpSyn notebook and the licence list

    A shallow embedding of [examples/expsyn/ExpSyn.ipynb] and of the
    ModelDB list of the repository's licence document.

    The notebook is a straight-line Python script over the [bluepyopt]
    library.  Its objects are embedded as records holding the arguments
    the notebook passes to each constructor, its cells as programs of a
    small state-and-exception monad that records every statement with an
    outside effect (magics, imports, instantiations, calls), and the
    calls that reach the simulator or the optimiser as fields of an
    [Engine] the development is parametric in. *)

From Stdlib Require Import ZArith String List Bool Lia.
From Stdlib Require Import Floats.PrimFloat Floats.SpecFloat Floats.FloatOps.
From stdpp Require Import base option list gmap strings fin_maps pretty.

Set Warnings "-inexact-float".
Local Open Scope string_scope.
Local Open Scope list_scope.
Local Open Scope Z_scope.

(** ** Python results *)

Inductive PyError : Type :=
| NameError (name : string)
| IndexError
| KeyError (key : string)
| TypeError (msg : string)
| RuntimeError (msg : string).

Inductive PyResult (A : Type) : Type :=
| Ok (a : A)
| Raised (e : PyError).
Arguments Ok {A} a.
Arguments Raised {A} e.

Definition returned {A : Type} (r : PyResult A) : Prop :=
  match r with Ok _ => True | Raised _ => False end.

(** ** The kernel: what a running notebook leaves behind *)

(** One entry per executed statement that reaches outside the notebook.
    [alias] is the name the notebook uses for an imported module and
    [path] the dotted attribute path below it, both as written in the
    cell; a method call records the class of its receiver. *)
Inductive Event : Type :=
| Magic (line : string)
| Import (module alias : string)
| New (alias path : string)
| Call (alias path : string)
| Method (alias class meth : string)
| Builtin (name : string)
| Define (name : string).

Record Kernel : Type := mkKernel {
  imports : gmap string string;
  log : list Event
}.

Definition fresh_kernel : Kernel := {| imports := ∅; log := [] |}.

Definition NB (A : Type) : Type := Kernel -> Kernel * PyResult A.

Definition ret {A : Type} (a : A) : NB A := fun k => (k, Ok a).

Definition bind {A B : Type} (m : NB A) (f : A -> NB B) : NB B :=
  fun k =>
    match m k with
    | (k', Ok a) => f a k'
    | (k', Raised e) => (k', Raised e)
    end.

Declare Scope nb_scope.
Delimit Scope nb_scope with nb.
Notation "x <- m ; f" := (bind m (fun x => f))
  (at level 20, m at level 100, f at level 200, only parsing) : nb_scope.
Notation "' pat <- m ; f" := (bind m (fun pat => f))
  (at level 20, pat pattern, m at level 100, f at level 200, only parsing) : nb_scope.
Notation "m ;; f" := (bind m (fun _ => f))
  (at level 100, f at level 200, only parsing, right associativity) : nb_scope.
Local Open Scope nb_scope.

Definition raise {A : Type} (e : PyError) : NB A := fun k => (k, Raised e).

Definition lift {A : Type} (r : PyResult A) : NB A := fun k => (k, r).

Definition emit (e : Event) : NB unit :=
  fun k => ({| imports := imports k; log := log k ++ [e] |}, Ok tt).

(** A module name is usable only once an [import] has bound it. *)
Definition resolve (alias : string) : NB string :=
  fun k =>
    match imports k !! alias with
    | Some m => (k, Ok m)
    | None => (k, Raised (NameError alias))
    end.

Definition magic (line : string) : NB unit := emit (Magic line).

Definition import (module alias : string) : NB unit :=
  fun k =>
    ({| imports := <[alias := module]> (imports k);
        log := log k ++ [Import module alias] |}, Ok tt).

(** The class of a Python object, as the notebook names it. *)
Class PyClass (T : Type) : Type := py_class : string * string.
Arguments py_class T {_}.

Definition new {T : Type} `{PyClass T} (obj : T) : NB T :=
  resolve (fst (py_class T));;
  emit (New (fst (py_class T)) (snd (py_class T)));;
  ret obj.

Definition call (alias path : string) : NB unit :=
  resolve alias;;
  emit (Call alias path).

Definition method {T R : Type} `{PyClass T} (recv : T) (meth : string)
    (r : PyResult R) : NB R :=
  emit (Method (fst (py_class T)) (snd (py_class T)) meth);;
  lift r.

Definition builtin (name : string) : NB unit := emit (Builtin name).

(** [l[i]] on a Python list. *)
Definition subscript_list {A : Type} (l : list A) (i : nat) : NB A :=
  match l !! i with
  | Some a => ret a
  | None => raise IndexError
  end.

(** [d[key]] on a Python dict with string keys. *)
Definition subscript_dict {A : Type} (d : gmap string A) (key : string) : NB A :=
  match d !! key with
  | Some a => ret a
  | None => raise (KeyError key)
  end.

(** What Python raises when [None] is subscripted. *)
Definition not_subscriptable : PyError :=
  TypeError "'NoneType' object is not subscriptable".

(** [recording[column]] on the recording of a response, which is [None]
    when the simulation produced no trace. *)
Definition subscript_recording (recording : option (gmap string (list float)))
    (column : string) : NB (list float) :=
  match recording with
  | Some columns => subscript_dict columns column
  | None => raise not_subscriptable
  end.

(** ** bluepyopt.ephys objects, by the arguments the notebook gives them *)

Module NrnSimulator.
Record t : Type := mk { }.
End NrnSimulator.

Module NrnFileMorphology.
Record t : Type := mk { morphology_path : string }.
End NrnFileMorphology.

Module NrnSeclistLocation.
Record t : Type := mk { name : string; seclist_name : string }.
End NrnSeclistLocation.

Module NrnSeclistCompLocation.
Record t : Type := mk {
  name : string;
  seclist_name : string;
  sec_index : Z;
  comp_x : float
}.
End NrnSeclistCompLocation.

Module NrnMODMechanism.
Record t : Type := mk {
  name : string;
  suffix : string;
  locations : list NrnSeclistLocation.t
}.
End NrnMODMechanism.

Module NrnMODPointProcessMechanism.
Record t : Type := mk {
  name : string;
  suffix : string;
  locations : list NrnSeclistCompLocation.t
}.
End NrnMODPointProcessMechanism.

Module NrnPointProcessLocation.
Record t : Type := mk {
  name : string;
  pprocess_mech : NrnMODPointProcessMechanism.t
}.
End NrnPointProcessLocation.

Module NrnPointProcessParameter.
Record t : Type := mk {
  name : string;
  param_name : string;
  value : Z;
  bounds : list Z;
  locations : list NrnPointProcessLocation.t
}.
End NrnPointProcessParameter.

(** The [mechs] list of a cell model mixes the two mechanism classes. *)
Inductive Mechanism : Type :=
| MODMechanism (m : NrnMODMechanism.t)
| MODPointProcessMechanism (m : NrnMODPointProcessMechanism.t).


Module CellModel.
Record t : Type := mk {
  name : string;
  morph : NrnFileMorphology.t;
  mechs : list Mechanism;
  params : list NrnPointProcessParameter.t
}.
End CellModel.

Module NrnNetStimStimulus.
Record t : Type := mk {
  total_duration : Z;
  number : Z;
  interval : Z;
  start : Z;
  weight : float;
  locations : list NrnPointProcessLocation.t
}.
End NrnNetStimStimulus.

Module CompRecording.
Record t : Type := mk {
  name : string;
  location : NrnSeclistCompLocation.t;
  variable : string
}.
End CompRecording.

Module SweepProtocol.
Record t : Type := mk {
  name : string;
  stimuli : list NrnNetStimStimulus.t;
  recordings : list CompRecording.t
}.
End SweepProtocol.

Module eFELFeature.
Record t : Type := mk {
  name : string;
  efel_feature_name : string;
  recording_names : gmap string string;
  stim_start : Z;
  stim_end : Z;
  exp_mean : Z;
  exp_std : float
}.
End eFELFeature.

Module SingletonObjective.
Record t : Type := mk { name : string; feature : eFELFeature.t }.
End SingletonObjective.

Module ObjectivesCalculator.
Record t : Type := mk { objectives : list SingletonObjective.t }.
End ObjectivesCalculator.

Module CellEvaluator.
Record t : Type := mk {
  cell_model : CellModel.t;
  param_names : list string;
  fitness_protocols : gmap string SweepProtocol.t;
  fitness_calculator : ObjectivesCalculator.t;
  sim : NrnSimulator.t
}.
End CellEvaluator.

Module DEAPOptimisation.
Record t : Type := mk { evaluator : CellEvaluator.t; offspring_size : Z }.
End DEAPOptimisation.

#[global] Instance NrnSimulator_class : PyClass NrnSimulator.t :=
  ("ephys", "simulators.NrnSimulator").
#[global] Instance NrnFileMorphology_class : PyClass NrnFileMorphology.t :=
  ("ephys", "morphologies.NrnFileMorphology").
#[global] Instance NrnSeclistLocation_class : PyClass NrnSeclistLocation.t :=
  ("ephys", "locations.NrnSeclistLocation").
#[global] Instance NrnSeclistCompLocation_class : PyClass NrnSeclistCompLocation.t :=
  ("ephys", "locations.NrnSeclistCompLocation").
#[global] Instance NrnMODMechanism_class : PyClass NrnMODMechanism.t :=
  ("ephys", "mechanisms.NrnMODMechanism").
#[global] Instance NrnMODPointProcessMechanism_class :
    PyClass NrnMODPointProcessMechanism.t :=
  ("ephys", "mechanisms.NrnMODPointProcessMechanism").
#[global] Instance NrnPointProcessLocation_class : PyClass NrnPointProcessLocation.t :=
  ("ephys", "locations.NrnPointProcessLocation").
#[global] Instance NrnPointProcessParameter_class : PyClass NrnPointProcessParameter.t :=
  ("ephys", "parameters.NrnPointProcessParameter").
#[global] Instance CellModel_class : PyClass CellModel.t :=
  ("ephys", "models.CellModel").
#[global] Instance NrnNetStimStimulus_class : PyClass NrnNetStimStimulus.t :=
  ("ephys", "stimuli.NrnNetStimStimulus").
#[global] Instance CompRecording_class : PyClass CompRecording.t :=
  ("ephys", "recordings.CompRecording").
#[global] Instance SweepProtocol_class : PyClass SweepProtocol.t :=
  ("ephys", "protocols.SweepProtocol").
#[global] Instance eFELFeature_class : PyClass eFELFeature.t :=
  ("ephys", "efeatures.eFELFeature").
#[global] Instance SingletonObjective_class : PyClass SingletonObjective.t :=
  ("ephys", "objectives.SingletonObjective").
#[global] Instance ObjectivesCalculator_class : PyClass ObjectivesCalculator.t :=
  ("ephys", "objectivescalculators.ObjectivesCalculator").
#[global] Instance CellEvaluator_class : PyClass CellEvaluator.t :=
  ("ephys", "evaluators.CellEvaluator").
#[global] Instance DEAPOptimisation_class : PyClass DEAPOptimisation.t :=
  ("bpopt", "optimisations.DEAPOptimisation").

(** ** What the library hands back *)

(** An individual of the optimiser: a list of parameter values carrying
    [fitness.values]. *)
Module Individual.
Record t : Type := mk { values : list float; fitness_values : list float }.
End Individual.

(** [responses[name]]: the recorded columns of each recording, or [None]
    for a recording the simulation failed to produce. *)
Abbreviation Responses := (gmap string (option (gmap string (list float)))).

(** The four calls of the notebook whose result is computed by the
    simulator or the optimiser behind [bluepyopt].  Each may raise. *)
Record Engine (Logbook History : Type) : Type := mkEngine {
  evaluate_with_dicts :
    CellEvaluator.t -> gmap string float -> PyResult (gmap string float);
  DEAPOptimisation_run :
    DEAPOptimisation.t -> Z ->
    PyResult (list Individual.t * list Individual.t * Logbook * History);
  param_dict :
    CellEvaluator.t -> Individual.t -> PyResult (gmap string float);
  SweepProtocol_run :
    SweepProtocol.t -> CellModel.t -> gmap string float -> NrnSimulator.t ->
    PyResult Responses
}.
Arguments evaluate_with_dicts {Logbook History} _ _ _.
Arguments DEAPOptimisation_run {Logbook History} _ _ _.
Arguments param_dict {Logbook History} _ _ _.
Arguments SweepProtocol_run {Logbook History} _ _ _ _ _.

(** ** The cells of ExpSyn.ipynb, in notebook order *)

(** In [1] *)
Definition In_1 : NB unit :=
  magic "%matplotlib inline";;
  import "matplotlib.pyplot" "plt";;
  magic "%reload_ext autoreload";;
  magic "%autoreload";;
  import "os" "os";;
  import "bluepyopt" "bpopt";;
  import "bluepyopt.ephys" "ephys".

(** In [2] *)
Definition In_2 :
    NB (NrnSimulator.t * NrnFileMorphology.t *
        NrnSeclistLocation.t * NrnSeclistCompLocation.t) :=
  nrn_sim <- new (NrnSimulator.mk);
  morph <- new {| NrnFileMorphology.morphology_path := "simple.swc" |};
  somatic_loc <- new {|
    NrnSeclistLocation.name := "somatic";
    NrnSeclistLocation.seclist_name := "somatic" |};
  somacenter_loc <- new {|
    NrnSeclistCompLocation.name := "somacenter";
    NrnSeclistCompLocation.seclist_name := "somatic";
    NrnSeclistCompLocation.sec_index := 0;
    NrnSeclistCompLocation.comp_x := 0.5 |};
  ret (nrn_sim, morph, somatic_loc, somacenter_loc).

(** In [3] *)
Definition In_3 (somatic_loc : NrnSeclistLocation.t) : NB NrnMODMechanism.t :=
  pas_mech <- new {|
    NrnMODMechanism.name := "pas";
    NrnMODMechanism.suffix := "pas";
    NrnMODMechanism.locations := [somatic_loc] |};
  ret pas_mech.

(** In [4] *)
Definition In_4 (somacenter_loc : NrnSeclistCompLocation.t) :
    NB NrnMODPointProcessMechanism.t :=
  expsyn_mech <- new {|
    NrnMODPointProcessMechanism.name := "expsyn";
    NrnMODPointProcessMechanism.suffix := "ExpSyn";
    NrnMODPointProcessMechanism.locations := [somacenter_loc] |};
  ret expsyn_mech.

(** In [5] *)
Definition In_5 (expsyn_mech : NrnMODPointProcessMechanism.t) :
    NB NrnPointProcessLocation.t :=
  expsyn_loc <- new {|
    NrnPointProcessLocation.name := "expsyn_loc";
    NrnPointProcessLocation.pprocess_mech := expsyn_mech |};
  ret expsyn_loc.

(** In [6] *)
Definition In_6 (expsyn_loc : NrnPointProcessLocation.t) :
    NB NrnPointProcessParameter.t :=
  expsyn_tau_param <- new {|
    NrnPointProcessParameter.name := "expsyn_tau";
    NrnPointProcessParameter.param_name := "tau";
    NrnPointProcessParameter.value := 2;
    NrnPointProcessParameter.bounds := [0; 50];
    NrnPointProcessParameter.locations := [expsyn_loc] |};
  ret expsyn_tau_param.

(** In [7] *)
Definition In_7 (morph : NrnFileMorphology.t) (pas_mech : NrnMODMechanism.t)
    (expsyn_mech : NrnMODPointProcessMechanism.t)
    (expsyn_tau_param : NrnPointProcessParameter.t) : NB CellModel.t :=
  cell <- new {|
    CellModel.name := "simple_cell";
    CellModel.morph := morph;
    CellModel.mechs := [MODMechanism pas_mech; MODPointProcessMechanism expsyn_mech];
    CellModel.params := [expsyn_tau_param] |};
  ret cell.

(** In [8] *)
Definition In_8 (expsyn_loc : NrnPointProcessLocation.t)
    (somacenter_loc : NrnSeclistCompLocation.t) :
    NB (Z * Z * Z * NrnNetStimStimulus.t * Z * CompRecording.t * SweepProtocol.t) :=
  let stim_start := 20 in
  let number := 5 in
  let interval := 5 in
  netstim <- new {|
    NrnNetStimStimulus.total_duration := 200;
    NrnNetStimStimulus.number := 5;
    NrnNetStimStimulus.interval := 5;
    NrnNetStimStimulus.start := stim_start;
    NrnNetStimStimulus.weight := 5e-4;
    NrnNetStimStimulus.locations := [expsyn_loc] |};
  let stim_end := stim_start + interval * number in
  rec <- new {|
    CompRecording.name := "soma.v";
    CompRecording.location := somacenter_loc;
    CompRecording.variable := "v" |};
  protocol <- new {|
    SweepProtocol.name := "netstim_protocol";
    SweepProtocol.stimuli := [netstim];
    SweepProtocol.recordings := [rec] |};
  ret (stim_start, number, interval, netstim, stim_end, rec, protocol).

(** In [9] *)
Definition In_9 (stim_start stim_end : Z) (cell : CellModel.t)
    (protocol : SweepProtocol.t) (nrn_sim : NrnSimulator.t) :
    NB (eFELFeature.t * SingletonObjective.t *
        ObjectivesCalculator.t * CellEvaluator.t) :=
  max_volt_feature <- new {|
    eFELFeature.name := "maximum_voltage";
    eFELFeature.efel_feature_name := "maximum_voltage";
    eFELFeature.recording_names := {[ "" := "soma.v" ]};
    eFELFeature.stim_start := stim_start;
    eFELFeature.stim_end := stim_end;
    eFELFeature.exp_mean := -50;
    eFELFeature.exp_std := 0.1 |};
  max_volt_objective <- new {|
    SingletonObjective.name := eFELFeature.name max_volt_feature;
    SingletonObjective.feature := max_volt_feature |};
  score_calc <- new {|
    ObjectivesCalculator.objectives := [max_volt_objective] |};
  cell_evaluator <- new {|
    CellEvaluator.cell_model := cell;
    CellEvaluator.param_names := ["expsyn_tau"];
    CellEvaluator.fitness_protocols := {[ SweepProtocol.name protocol := protocol ]};
    CellEvaluator.fitness_calculator := score_calc;
    CellEvaluator.sim := nrn_sim |};
  ret (max_volt_feature, max_volt_objective, score_calc, cell_evaluator).

(** The names the kernel holds once In [1] to In [9] have run. *)
Record Namespace : Type := mkNamespace {
  nrn_sim : NrnSimulator.t;
  morph : NrnFileMorphology.t;
  somatic_loc : NrnSeclistLocation.t;
  somacenter_loc : NrnSeclistCompLocation.t;
  pas_mech : NrnMODMechanism.t;
  expsyn_mech : NrnMODPointProcessMechanism.t;
  expsyn_loc : NrnPointProcessLocation.t;
  expsyn_tau_param : NrnPointProcessParameter.t;
  cell : CellModel.t;
  stim_start : Z;
  number : Z;
  interval : Z;
  netstim : NrnNetStimStimulus.t;
  stim_end : Z;
  rec : CompRecording.t;
  protocol : SweepProtocol.t;
  max_volt_feature : eFELFeature.t;
  max_volt_objective : SingletonObjective.t;
  score_calc : ObjectivesCalculator.t;
  cell_evaluator : CellEvaluator.t
}.

Definition setup : NB Namespace :=
  In_1;;
  '(nrn_sim, morph, somatic_loc, somacenter_loc) <- In_2;
  pas_mech <- In_3 somatic_loc;
  expsyn_mech <- In_4 somacenter_loc;
  expsyn_loc <- In_5 expsyn_mech;
  expsyn_tau_param <- In_6 expsyn_loc;
  cell <- In_7 morph pas_mech expsyn_mech expsyn_tau_param;
  '(stim_start, number, interval, netstim, stim_end, rec, protocol) <-
    In_8 expsyn_loc somacenter_loc;
  '(max_volt_feature, max_volt_objective, score_calc, cell_evaluator) <-
    In_9 stim_start stim_end cell protocol nrn_sim;
  ret {|
    nrn_sim := nrn_sim; morph := morph; somatic_loc := somatic_loc;
    somacenter_loc := somacenter_loc; pas_mech := pas_mech;
    expsyn_mech := expsyn_mech; expsyn_loc := expsyn_loc;
    expsyn_tau_param := expsyn_tau_param; cell := cell;
    stim_start := stim_start; number := number; interval := interval;
    netstim := netstim; stim_end := stim_end; rec := rec;
    protocol := protocol; max_volt_feature := max_volt_feature;
    max_volt_objective := max_volt_objective; score_calc := score_calc;
    cell_evaluator := cell_evaluator |}.

(** The dictionary In [10] evaluates. *)
Definition default_param_values : gmap string float :=
  {[ "expsyn_tau" := 10.0%float ]}.

Section Notebook.

Context {Logbook History : Type}.
Variable E : Engine Logbook History.

(** In [10] *)
Definition In_10 (ns : Namespace) : NB (gmap string float * gmap string float) :=
  scores <- method (cell_evaluator ns) "evaluate_with_dicts"
              (evaluate_with_dicts E (cell_evaluator ns) default_param_values);
  builtin "print";;
  ret (default_param_values, scores).

(** In [ ]: the optimisation cell *)
Definition In_opt (ns : Namespace) : NB (DEAPOptimisation.t * list Individual.t) :=
  optimisation <- new {|
    DEAPOptimisation.evaluator := cell_evaluator ns;
    DEAPOptimisation.offspring_size := 10 |};
  '(_, hall_of_fame, _, _) <-
    method optimisation "run" (DEAPOptimisation_run E optimisation 5);
  ret (optimisation, hall_of_fame).

(** In [11] *)
Definition In_11 (ns : Namespace) (hall_of_fame : list Individual.t) :
    NB (Individual.t * list float * list float) :=
  best_ind <- subscript_list hall_of_fame 0;
  builtin "print";;
  builtin "print";;
  best_ind_dict <- method (cell_evaluator ns) "param_dict"
                     (param_dict E (cell_evaluator ns) best_ind);
  responses <- method (protocol ns) "run"
                 (SweepProtocol_run E (protocol ns) (cell ns) best_ind_dict (nrn_sim ns));
  soma_v <- subscript_dict responses "soma.v";
  time <- subscript_recording soma_v "time";
  soma_v <- subscript_dict responses "soma.v";
  voltage <- subscript_recording soma_v "voltage";
  import "matplotlib.pyplot" "plt";;
  call "plt" "style.use";;
  call "plt" "plot";;
  call "plt" "xlabel";;
  call "plt" "ylabel";;
  call "plt" "show";;
  ret (best_ind, time, voltage).

(** The notebook up to and including the optimisation. *)
Definition optimise : NB (Namespace * DEAPOptimisation.t * list Individual.t) :=
  ns <- setup;
  In_10 ns;;
  '(optimisation, hall_of_fame) <- In_opt ns;
  ret (ns, optimisation, hall_of_fame).

(** The whole notebook, every cell run once from a fresh kernel. *)
Definition notebook : NB (Individual.t * list float * list float) :=
  '(ns, _, hall_of_fame) <- optimise;
  In_11 ns hall_of_fame.

End Notebook.

(** ** Running from a fresh kernel *)

Definition log_of {A : Type} (m : NB A) : list Event := log (fst (m fresh_kernel)).

Definition result_of {A : Type} (m : NB A) : PyResult A := snd (m fresh_kernel).

Definition unwrap {A : Type} (r : PyResult A) :
    match r with Ok _ => A | Raised _ => PyError end :=
  match r with Ok a => a | Raised e => e end.

(** The kernel and the names In [1] to In [9] leave behind. *)
Definition setup_kernel : Kernel := Eval vm_compute in fst (setup fresh_kernel).

Definition setup_ns : Namespace := Eval vm_compute in unwrap (result_of setup).

(** The optimiser object In [ ] builds from those names. *)
Definition optimisation : DEAPOptimisation.t := {|
  DEAPOptimisation.evaluator := cell_evaluator setup_ns;
  DEAPOptimisation.offspring_size := 10 |}.

(** ** Reading the log *)

(** The stages of the pipeline and the library names that carry them. *)
Inductive Stage : Type :=
| Simulator
| Mechanisms
| Protocol
| Fitness
| Optimiser.

Definition stage_classes : list (string * Stage) :=
  [ ("simulators.NrnSimulator", Simulator);
    ("mechanisms.NrnMODMechanism", Mechanisms);
    ("mechanisms.NrnMODPointProcessMechanism", Mechanisms);
    ("models.CellModel", Mechanisms);
    ("stimuli.NrnNetStimStimulus", Protocol);
    ("protocols.SweepProtocol", Protocol);
    ("efeatures.eFELFeature", Fitness);
    ("objectives.SingletonObjective", Fitness);
    ("objectivescalculators.ObjectivesCalculator", Fitness);
    ("evaluators.CellEvaluator", Fitness);
    ("optimisations.DEAPOptimisation", Optimiser) ].

Definition stage_methods : list (string * string * Stage) :=
  [ ("evaluators.CellEvaluator", "evaluate_with_dicts", Fitness);
    ("optimisations.DEAPOptimisation", "run", Optimiser) ].

Fixpoint assoc {A : Type} (key : string) (l : list (string * A)) : option A :=
  match l with
  | [] => None
  | (k, a) :: l => if String.eqb k key then Some a else assoc key l
  end.

Definition stage_of (e : Event) : option Stage :=
  match e with
  | New _ path => assoc path stage_classes
  | Method _ class meth =>
      match find (fun '(c, m, _) => String.eqb c class && String.eqb m meth)
                 stage_methods with
      | Some (_, _, s) => Some s
      | None => None
      end
  | _ => None
  end.




(** The modules the notebook imports its callables from. *)
Definition library_modules : list string :=
  [ "bluepyopt"; "bluepyopt.ephys"; "matplotlib.pyplot" ].

(** [outside imp e]: the statement [e] is no definition of the notebook's
    own, and what it instantiates or calls lives in an imported library. *)
Definition outside (imp : gmap string string) (e : Event) : bool :=
  match e with
  | Define _ => false
  | New alias _ | Call alias _ | Method alias _ _ =>
      match imp !! alias with
      | Some m => bool_decide (m ∈ library_modules)
      | None => false
      end
  | Magic _ | Import _ _ | Builtin _ => true
  end.

(** The method calls behind which the simulator and the optimiser run. *)
Definition engine_methods : list (string * string * string) :=
  [ ("ephys", "evaluators.CellEvaluator", "evaluate_with_dicts");
    ("bpopt", "optimisations.DEAPOptimisation", "run");
    ("ephys", "evaluators.CellEvaluator", "param_dict");
    ("ephys", "protocols.SweepProtocol", "run") ].

Definition library_method (e : Event) : bool :=
  match e with
  | Method alias class meth => bool_decide ((alias, class, meth) ∈ engine_methods)
  | New _ _ | Call _ _ | Magic _ | Import _ _ | Builtin _ | Define _ => true
  end.

(** The statements from the simulator's instantiation to the optimiser's
    run, as a complete execution logs them. *)
Definition pipeline_steps : list Event :=
  [ New "ephys" "simulators.NrnSimulator";
    New "ephys" "morphologies.NrnFileMorphology";
    New "ephys" "locations.NrnSeclistLocation";
    New "ephys" "locations.NrnSeclistCompLocation";
    New "ephys" "mechanisms.NrnMODMechanism";
    New "ephys" "mechanisms.NrnMODPointProcessMechanism";
    New "ephys" "locations.NrnPointProcessLocation";
    New "ephys" "parameters.NrnPointProcessParameter";
    New "ephys" "models.CellModel";
    New "ephys" "stimuli.NrnNetStimStimulus";
    New "ephys" "recordings.CompRecording";
    New "ephys" "protocols.SweepProtocol";
    New "ephys" "efeatures.eFELFeature";
    New "ephys" "objectives.SingletonObjective";
    New "ephys" "objectivescalculators.ObjectivesCalculator";
    New "ephys" "evaluators.CellEvaluator";
    Method "ephys" "evaluators.CellEvaluator" "evaluate_with_dicts";
    Builtin "print";
    New "bpopt" "optimisations.DEAPOptimisation";
    Method "bpopt" "optimisations.DEAPOptimisation" "run" ].

(** ** The stimulus and the feature window *)

(** Modelled from the spec: the presynaptic events of an
    [NrnNetStimStimulus], whose class ([bluepyopt.ephys.stimuli]) is not
    among the sources: [number] events, [interval] apart, the first at
    [start]. *)
Definition event_times (s : NrnNetStimStimulus.t) : list Z :=
  map (fun i => NrnNetStimStimulus.start s + NrnNetStimStimulus.interval s * Z.of_nat i)
      (seq 0 (Z.to_nat (NrnNetStimStimulus.number s))).

Definition in_window (f : eFELFeature.t) (t : Z) : bool :=
  (eFELFeature.stim_start f <=? t) && (t <=? eFELFeature.stim_end f).

(** ** Bounds of a parameter *)

(** Python compares an [int] with a [float] by exact value. *)
Definition Z_le_float (n : Z) (x : float) : bool :=
  match Prim2SF x with
  | S754_zero _ => n <=? 0
  | S754_infinity s => negb s
  | S754_nan => false
  | S754_finite s m e =>
      let v := if s then Z.neg m else Z.pos m in
      if 0 <=? e then n <=? v * 2 ^ e else n * 2 ^ (- e) <=? v
  end.

Definition float_le_Z (x : float) (n : Z) : bool :=
  match Prim2SF x with
  | S754_zero _ => 0 <=? n
  | S754_infinity s => s
  | S754_nan => false
  | S754_finite s m e =>
      let v := if s then Z.neg m else Z.pos m in
      if 0 <=? e then v * 2 ^ e <=? n else v <=? n * 2 ^ (- e)
  end.

Definition Z_within (bounds : list Z) (v : Z) : bool :=
  match bounds with
  | [lower; upper] => (lower <=? v) && (v <=? upper)
  | _ => false
  end.

Definition float_within (bounds : list Z) (x : float) : bool :=
  match bounds with
  | [lower; upper] => Z_le_float lower x && float_le_Z x upper
  | _ => false
  end.

(** ** The outputs stored in the notebook *)

(** Out of In [10]. *)
Definition stored_scores : gmap string float :=
  {[ "maximum_voltage" := 29.716831912606736%float ]}.

(** Out of In [11]: the best individual and its fitness values. *)
Definition stored_best_ind : Individual.t := {|
  Individual.values := [14.03202650928813%float];
  Individual.fitness_values := [1.181341617527849%float] |}.

(** An engine that answers with the stored outputs.  The notebook keeps
    the final population and the recorded columns only as a picture; they
    are left empty here. *)
Definition replay : Engine unit unit := {|
  evaluate_with_dicts := fun _ _ => Ok stored_scores;
  DEAPOptimisation_run := fun _ _ => Ok ([], [stored_best_ind], tt, tt);
  param_dict := fun _ ind =>
    Ok (list_to_map (zip ["expsyn_tau"] (Individual.values ind)));
  SweepProtocol_run := fun _ _ _ _ =>
    Ok {[ "soma.v" := Some {[ "time" := []; "voltage" := [] ]} ]} |}.

(** ** The ModelDB list of the licence document *)

Module Licence.


(** One numbered item of the list, with the fields the document gives
    it; [number] is the number as printed. *)
Record Entry : Type := mkEntry {
  number : nat;
  title : string;
  authors : list string;
  accession : option Z;
  original_url : option string;
  publications : option string
}.



Definition hay_et_al : list string :=
  [ "Etay Hay"; "Shaul Druckmann"; "Srikanth Ramaswamy"; "James King";
    "Werner Van Geit" ].

Definition TC_Nap_Et2 : Entry := {|
  number := 1;
  title := "TC_Nap_Et2, persistent sodium current";
  authors := hay_et_al ++ ["Elisabetta Iavarone"];
  accession := Some 139653;
  original_url := Some "https://senselab.med.yale.edu/modeldb/ShowModel.cshtml?model=139653&file=/L5bPCmodelsEH/mod/Nap_Et2.mod#tabs-2";
  publications := None |}.

Definition SK_E2 : Entry := {|
  number := 2;
  title := "SK_E2, calcium-activated potassium current";
  authors := hay_et_al;
  accession := Some 139653;
  original_url := Some "https://senselab.med.yale.edu/modeldb/ShowModel.cshtml?model=139653&file=/L5bPCmodelsEH/mod/SK_E2.mod#tabs-2";
  publications := None |}.

Definition CaDynamics_E2 : Entry := {|
  number := 3;
  title := "Intracellular calcium dynamics";
  authors := hay_et_al;
  accession := Some 139653;
  original_url := Some "https://senselab.med.yale.edu/modeldb/ShowModel.cshtml?model=139653&file=/L5bPCmodelsEH/mod/CaDynamics_E2.mod#tabs-2";
  publications := None |}.

Definition TC_ITGHK_Des98 : Entry := {|
  number := 4;
  title := "TC_ITGHK_Des98, low-threshold calcium current";
  authors := ["Alain Destexhe"];
  accession := Some 279;
  original_url := Some "https://senselab.med.yale.edu/ModelDB/ShowModel.cshtml?model=279&file=/dendtc/ITGHK.mod#tabs-2";
  publications := None |}.

Definition TC_HH : Entry := {|
  number := 5;
  title := "TC_HH, fast Na+ and K+ currents responsible for action potentials";
  authors := ["Alain Destexhe"; "Elisabetta Iavarone"];
  accession := Some 279;
  original_url := Some "https://senselab.med.yale.edu/ModelDB/ShowModel.cshtml?model=279&file=/dendtc/hh2.mod#tabs-2";
  publications := None |}.

Definition TC_iL : Entry := {|
  number := 5;
  title := "TC_iL, high-threshold calcium current";
  authors := ["Arthur Houweling"];
  accession := Some 3808;
  original_url := Some "https://senselab.med.yale.edu/modeldb/ShowModel.cshtml?model=3808&file=/MyFirstNEURON/il.mod#tabs-2";
  publications := None |}.

Definition TC_iA : Entry := {|
  number := 7;
  title := "TC_iA, fast transient potassium current:";
  authors := ["Yimi Amarillo"];
  accession := None;
  original_url := None;
  publications := Some "Amarillo et al., J Neurophysiol, 2014, Huguenard and McCormick, J Neurophysiol, 1992" |}.

Definition TC_Ih_Bud97 : Entry := {|
  number := 8;
  title := "TC_Ih_Bud97, Ih current";
  authors := ["Elisabetta Iavarone"];
  accession := None;
  original_url := None;
  publications := Some "Budde et al., J Physiol, 1997, Huguenard and McCormick, J Neurophysiol, 1992" |}.

Definition modeldb_list : list Entry :=
  [ TC_Nap_Et2; SK_E2; CaDynamics_E2; TC_ITGHK_Des98; TC_HH; TC_iL; TC_iA;
    TC_Ih_Bud97 ].

(** [mentions word s]: [word] occurs in [s]. *)
Definition mentions (word s : string) : bool :=
  match String.index 0 word s with
  | Some _ => true
  | None => false
  end.

(** The words by which a title names a sodium, potassium or calcium
    current. *)
Definition ion_words : list string :=
  [ "sodium"; "Na+"; "potassium"; "K+"; "calcium" ].

Definition ionic (e : Entry) : bool :=
  existsb (fun w => mentions w (title e)) ion_words.


End Licence.

(** ** The repository's mechanism files *)






(** ** Kinds of mechanism *)




(** ** The morphology file *)





(** ** Invariants of a run *)

(** What the notebook runs once In [1] to In [9] are done. *)
Definition after_setup {Logbook History : Type} (E : Engine Logbook History)
    (ns : Namespace) : NB (Individual.t * list float * list float) :=
  '(ns', _, hall_of_fame) <-
    (In_10 E ns;;
     '(optimisation, hall_of_fame) <- In_opt E ns;
     ret (ns, optimisation, hall_of_fame));
  In_11 E ns' hall_of_fame.

(** [steps R m]: running [m] takes every kernel to an [R]-related one. *)
Definition steps (R : Kernel -> Kernel -> Prop) {A : Type} (m : NB A) : Prop :=
  forall k, R k (fst (m k)).

(** A statement of the library: it is [outside] under the imports of
    In [1], and if a method call, one of the [engine_methods]. *)
Definition lib_event (e : Event) : bool :=
  outside (imports setup_kernel) e && library_method e.

(** The log only grows. *)
Definition grows (k k' : Kernel) : Prop :=
  exists rest, log k' = log k ++ rest.



(** ** Complete and interrupted runs *)

(** The statements In [10], the optimisation cell and In [11] log when
    nothing raises. *)
Definition closing_steps : list Event :=
  [ Method "ephys" "evaluators.CellEvaluator" "evaluate_with_dicts";
    Builtin "print";
    New "bpopt" "optimisations.DEAPOptimisation";
    Method "bpopt" "optimisations.DEAPOptimisation" "run";
    Builtin "print";
    Builtin "print";
    Method "ephys" "evaluators.CellEvaluator" "param_dict";
    Method "ephys" "protocols.SweepProtocol" "run";
    Import "matplotlib.pyplot" "plt";
    Call "plt" "style.use";
    Call "plt" "plot";
    Call "plt" "xlabel";
    Call "plt" "ylabel";
    Call "plt" "show" ].

(** The log of a run in which nothing raises. *)
Definition complete_log : list Event := log setup_kernel ++ closing_steps.

Definition plots (e : Event) : bool :=
  match e with
  | Call alias _ => String.eqb alias "plt"
  | _ => false
  end.

(** Engines that fail where the stored run went through. *)
Definition failing_evaluation : Engine unit unit := {|
  evaluate_with_dicts := fun _ _ => Raised (RuntimeError "evaluation failed");
  DEAPOptimisation_run := DEAPOptimisation_run replay;
  param_dict := param_dict replay;
  SweepProtocol_run := SweepProtocol_run replay |}.

Definition empty_hall_of_fame : Engine unit unit := {|
  evaluate_with_dicts := evaluate_with_dicts replay;
  DEAPOptimisation_run := fun _ _ => Ok ([], [], tt, tt);
  param_dict := param_dict replay;
  SweepProtocol_run := SweepProtocol_run replay |}.

Definition no_recording : Engine unit unit := {|
  evaluate_with_dicts := evaluate_with_dicts replay;
  DEAPOptimisation_run := DEAPOptimisation_run replay;
  param_dict := param_dict replay;
  SweepProtocol_run := fun _ _ _ _ => Ok ∅ |}.

(** The simulation of the best individual fails: the protocol answers
    with [None] for its recording. *)
Definition failed_simulation : Engine unit unit := {|
  evaluate_with_dicts := evaluate_with_dicts replay;
  DEAPOptimisation_run := DEAPOptimisation_run replay;
  param_dict := param_dict replay;
  SweepProtocol_run := fun _ _ _ _ => Ok {[ "soma.v" := None ]} |}.

(** * Properties *)

(** ** The monad *)

Lemma bind_Ok {A B : Type} (m : NB A) (f : A -> NB B) k k' a :
  m k = (k', Ok a) -> bind m f k = f a k'.
Proof. intros H. unfold bind. now rewrite H. Qed.

Lemma bind_Raised {A B : Type} (m : NB A) (f : A -> NB B) k k' e :
  m k = (k', Raised e) -> bind m f k = (k', Raised e).
Proof. intros H. unfold bind. now rewrite H. Qed.

Lemma bind_assoc {A B C : Type} (m : NB A) (f : A -> NB B) (g : B -> NB C) k :
  bind (bind m f) g k = bind m (fun a => bind (f a) g) k.
Proof.
  unfold bind. destruct (m k) as [k' [a|e]]; reflexivity.
Qed.

Lemma bind_ret_l {A B : Type} (a : A) (f : A -> NB B) k :
  bind (ret a) f k = f a k.
Proof. reflexivity. Qed.

Section Steps.

Context (R : Kernel -> Kernel -> Prop).
Hypothesis R_refl : forall k, R k k.
Hypothesis R_trans : forall k1 k2 k3, R k1 k2 -> R k2 k3 -> R k1 k3.
Hypothesis R_emit : forall k e, lib_event e = true -> R k (fst (emit e k)).
Hypothesis R_import : forall k module alias,
  imports setup_kernel !! alias = Some module ->
  R k (fst (import module alias k)).

Lemma steps_ret {A : Type} (a : A) : steps R (ret a).
Proof. intros k. apply R_refl. Qed.

Lemma steps_raise {A : Type} (e : PyError) : steps R (@raise A e).
Proof. intros k. apply R_refl. Qed.

Lemma steps_lift {A : Type} (r : PyResult A) : steps R (lift r).
Proof. intros k. apply R_refl. Qed.

Lemma steps_resolve (alias : string) : steps R (resolve alias).
Proof.
  intros k. unfold resolve. destruct (imports k !! alias); apply R_refl.
Qed.

Lemma steps_bind {A B : Type} (m : NB A) (f : A -> NB B) :
  steps R m -> (forall a, steps R (f a)) -> steps R (bind m f).
Proof.
  intros Hm Hf k. unfold bind. specialize (Hm k).
  destruct (m k) as [k' [a|e]]; simpl in *.
  - eapply R_trans; [exact Hm | apply Hf].
  - exact Hm.
Qed.

Lemma steps_emit (e : Event) : lib_event e = true -> steps R (emit e).
Proof. intros He k. now apply R_emit. Qed.

Lemma steps_import (module alias : string) :
  imports setup_kernel !! alias = Some module -> steps R (import module alias).
Proof. intros H k. now apply R_import. Qed.

Lemma steps_new {T : Type} `{PyClass T} (obj : T) :
  lib_event (New (fst (py_class T)) (snd (py_class T))) = true ->
  steps R (new obj).
Proof.
  intros He. unfold new.
  apply steps_bind; [apply steps_resolve | intros _].
  apply steps_bind; [now apply steps_emit | intros _; apply steps_ret].
Qed.

Lemma steps_call (alias path : string) :
  lib_event (Call alias path) = true -> steps R (call alias path).
Proof.
  intros He. unfold call.
  apply steps_bind; [apply steps_resolve | intros _; now apply steps_emit].
Qed.

Lemma steps_method {T A : Type} `{PyClass T} (recv : T) (meth : string)
    (r : PyResult A) :
  lib_event (Method (fst (py_class T)) (snd (py_class T)) meth) = true ->
  steps R (method recv meth r).
Proof.
  intros He. unfold method.
  apply steps_bind; [now apply steps_emit | intros _; apply steps_lift].
Qed.

Lemma steps_builtin (name : string) : steps R (builtin name).
Proof. apply steps_emit. reflexivity. Qed.

Lemma steps_subscript_list {A : Type} (l : list A) (i : nat) :
  steps R (subscript_list l i).
Proof.
  unfold subscript_list. destruct (l !! i); [apply steps_ret | apply steps_raise].
Qed.

Lemma steps_subscript_dict {A : Type} (d : gmap string A) (key : string) :
  steps R (subscript_dict d key).
Proof.
  unfold subscript_dict. destruct (d !! key); [apply steps_ret | apply steps_raise].
Qed.

Lemma steps_subscript_recording recording (column : string) :
  steps R (subscript_recording recording column).
Proof.
  unfold subscript_recording.
  destruct recording; [apply steps_subscript_dict | apply steps_raise].
Qed.

Context {Logbook History : Type} (E : Engine Logbook History).

Ltac step :=
  first
    [ apply steps_ret
    | apply steps_builtin
    | apply steps_subscript_list
    | apply steps_subscript_dict
    | apply steps_subscript_recording
    | apply steps_new; vm_compute; reflexivity
    | apply steps_method; vm_compute; reflexivity
    | apply steps_call; vm_compute; reflexivity
    | apply steps_import; vm_compute; reflexivity
    | apply steps_bind; [| intro] ].

Lemma In_10_steps (ns : Namespace) : steps R (In_10 E ns).
Proof. unfold In_10. repeat step. Qed.

Lemma In_opt_steps (ns : Namespace) : steps R (In_opt E ns).
Proof.
  unfold In_opt.
  apply steps_bind; [apply steps_new; vm_compute; reflexivity | intros o].
  apply steps_bind; [apply steps_method; vm_compute; reflexivity |].
  intros [[[? ?] ?] ?]. apply steps_ret.
Qed.

Lemma In_11_steps (ns : Namespace) (hall_of_fame : list Individual.t) :
  steps R (In_11 E ns hall_of_fame).
Proof. unfold In_11. repeat step. Qed.

Lemma after_setup_steps (ns : Namespace) : steps R (after_setup E ns).
Proof.
  unfold after_setup.
  apply steps_bind.
  - apply steps_bind; [apply In_10_steps | intros _].
    apply steps_bind; [apply In_opt_steps | intros [? ?]; apply steps_ret].
  - intros [[? ?] ?]. apply In_11_steps.
Qed.

End Steps.

(** ** The two invariants *)

Lemma grows_refl k : grows k k.
Proof. exists []. now rewrite app_nil_r. Qed.

Lemma grows_trans k1 k2 k3 : grows k1 k2 -> grows k2 k3 -> grows k1 k3.
Proof.
  intros [r1 H1] [r2 H2]. exists (r1 ++ r2).
  now rewrite H2, H1, app_assoc.
Qed.

Lemma grows_emit k e : grows k (fst (emit e k)).
Proof. now exists [e]. Qed.

Lemma grows_import k module alias : grows k (fst (import module alias k)).
Proof. now exists [Import module alias]. Qed.





(** ** In [1] to In [9] *)

Lemma run_setup : setup fresh_kernel = (setup_kernel, Ok setup_ns).
Proof. vm_compute. reflexivity. Qed.

Lemma setup_log : log setup_kernel = log_of In_1 ++ firstn 16 pipeline_steps.
Proof. vm_compute. reflexivity. Qed.




Section Runs.

Context {Logbook History : Type} (E : Engine Logbook History).

Lemma notebook_after_setup :
  notebook E fresh_kernel = after_setup E setup_ns setup_kernel.
Proof.
  unfold notebook, optimise, after_setup.
  rewrite !bind_assoc, (bind_Ok _ _ _ _ _ run_setup).
  rewrite !bind_assoc. reflexivity.
Qed.


Lemma notebook_grows : grows setup_kernel (fst (notebook E fresh_kernel)).
Proof.
  rewrite notebook_after_setup.
  apply (after_setup_steps grows grows_refl grows_trans).
  - intros k e _. apply grows_emit.
  - intros k module alias _. apply grows_import.
Qed.

End Runs.

(** ** In [10] and the optimisation cell, statement by statement *)

Section Cells.

Context {Logbook History : Type} (E : Engine Logbook History).

Lemma In_10_run (ns : Namespace) k scores :
  evaluate_with_dicts E (cell_evaluator ns) default_param_values = Ok scores ->
  In_10 E ns k =
  ({| imports := imports k;
      log := (log k ++ [Method "ephys" "evaluators.CellEvaluator" "evaluate_with_dicts"])
             ++ [Builtin "print"] |},
   Ok (default_param_values, scores)).
Proof.
  intros H. unfold In_10, method, builtin, bind, emit, lift, ret. simpl.
  now rewrite H.
Qed.


Lemma In_opt_result (ns : Namespace) k k' opt hall_of_fame :
  In_opt E ns k = (k', Ok (opt, hall_of_fame)) ->
  opt = {| DEAPOptimisation.evaluator := cell_evaluator ns;
           DEAPOptimisation.offspring_size := 10 |}.
Proof.
  unfold In_opt, new, method, bind, resolve, emit, lift, ret. simpl.
  destruct (imports k !! "bpopt"); [| discriminate].
  destruct (DEAPOptimisation_run E _ 5) as [[[[? ?] ?] ?]|]; [| discriminate].
  now intros [= _ <- _].
Qed.


Lemma optimise_result ns opt hall_of_fame :
  result_of (optimise E) = Ok (ns, opt, hall_of_fame) ->
  ns = setup_ns /\ opt = optimisation.
Proof.
  unfold result_of, optimise.
  rewrite (bind_Ok _ _ _ _ _ run_setup). unfold bind.
  destruct (In_10 E setup_ns setup_kernel) as [k1 [r|e]]; [| discriminate].
  destruct (In_opt E setup_ns k1) as [k2 [[o h]|e]] eqn:Hopt; [| discriminate].
  simpl. intros [= <- <- <-]. split; [reflexivity |].
  now apply In_opt_result in Hopt.
Qed.


End Cells.

(** ** The stimulus schedule *)

Lemma event_times_bounds (s : NrnNetStimStimulus.t) (t : Z) :
  0 <= NrnNetStimStimulus.interval s ->
  In t (event_times s) ->
  NrnNetStimStimulus.start s <= t <=
  NrnNetStimStimulus.start s
  + NrnNetStimStimulus.interval s * NrnNetStimStimulus.number s.
Proof.
  intros Hi Ht. unfold event_times in Ht.
  apply in_map_iff in Ht as (i & <- & Hin).
  apply in_seq in Hin. nia.
Qed.

Lemma event_times_length (s : NrnNetStimStimulus.t) :
  length (event_times s) = Z.to_nat (NrnNetStimStimulus.number s).
Proof. unfold event_times. now rewrite length_map, length_seq. Qed.

(** ** The pipeline *)



(** C7: with [stim_start = 20], [interval = 5] and [number = 5] the
    notebook's [stim_end = stim_start + interval * number] is 45; the
    feature window from [stim_start] to [stim_end] holds the five event
    times 20, 25, 30, 35, 40 of the stimulus and lies within its
    [total_duration] of 200. *)
Theorem stim_window :
  let feature := max_volt_feature setup_ns in
  let stimulus := netstim setup_ns in
  result_of setup = Ok setup_ns
  /\ stim_start setup_ns = 20 /\ interval setup_ns = 5 /\ number setup_ns = 5
  /\ stim_end setup_ns = stim_start setup_ns + interval setup_ns * number setup_ns
  /\ stim_end setup_ns = 45
  /\ eFELFeature.stim_start feature = 20
  /\ eFELFeature.stim_end feature = 45
  /\ event_times stimulus = [20; 25; 30; 35; 40]
  /\ Forall (fun t => in_window feature t = true) (event_times stimulus)
  /\ 0 <= eFELFeature.stim_start feature
  /\ eFELFeature.stim_end feature <= NrnNetStimStimulus.total_duration stimulus
  /\ NrnNetStimStimulus.total_duration stimulus = 200.
Proof.
  intros feature stimulus. repeat apply conj; try reflexivity.
  - apply Forall_forall. intros t Ht.
    apply list_elem_of_In, event_times_bounds in Ht; [| easy].
    change (NrnNetStimStimulus.start stimulus) with 20 in Ht.
    change (NrnNetStimStimulus.interval stimulus) with 5 in Ht.
    change (NrnNetStimStimulus.number stimulus) with 5 in Ht.
    unfold in_window.
    change (eFELFeature.stim_start feature) with 20.
    change (eFELFeature.stim_end feature) with 45.
    apply andb_true_iff. split; apply Z.leb_le; lia.
  - easy.
  - easy.
Qed.

(** ** The licence list *)

Lemma ionic_entries :
  map Licence.ionic Licence.modeldb_list
  = [true; true; true; true; true; true; true; false].
Proof. vm_compute. reflexivity. Qed.

(** ** A complete run on the stored outputs *)

Lemma replay_log :
  log_of (notebook replay) =
  log_of In_1 ++ pipeline_steps ++
  [ Builtin "print"; Builtin "print";
    Method "ephys" "evaluators.CellEvaluator" "param_dict";
    Method "ephys" "protocols.SweepProtocol" "run";
    Import "matplotlib.pyplot" "plt";
    Call "plt" "style.use"; Call "plt" "plot"; Call "plt" "xlabel";
    Call "plt" "ylabel"; Call "plt" "show" ].
Proof. vm_compute. reflexivity. Qed.

Lemma replay_result :
  result_of (notebook replay) = Ok (stored_best_ind, [], []).
Proof. vm_compute. reflexivity. Qed.

(** ** The feature, the objective and the bounds as the notebook sets them *)

Lemma feature_configuration :
  max_volt_feature setup_ns =
  {| eFELFeature.name := "maximum_voltage";
     eFELFeature.efel_feature_name := "maximum_voltage";
     eFELFeature.recording_names := {[ "" := "soma.v" ]};
     eFELFeature.stim_start := 20;
     eFELFeature.stim_end := 45;
     eFELFeature.exp_mean := -50;
     eFELFeature.exp_std := 0.1 |}.
Proof. vm_compute. reflexivity. Qed.

Lemma recording_of_feature :
  eFELFeature.recording_names (max_volt_feature setup_ns) !! ""
  = Some (CompRecording.name (rec setup_ns)).
Proof. vm_compute. reflexivity. Qed.

Lemma objective_names :
  map SingletonObjective.name
      (ObjectivesCalculator.objectives (score_calc setup_ns))
  = ["maximum_voltage"].
Proof. reflexivity. Qed.

Lemma stored_scores_keys : dom stored_scores = ({[ "maximum_voltage" ]} : gset string).
Proof. unfold stored_scores. apply dom_singleton_L. Qed.

Lemma stored_score_nonnegative :
  map_Forall (fun _ score => Z_le_float 0 score = true) stored_scores.
Proof. unfold stored_scores. apply map_Forall_singleton. vm_compute. reflexivity. Qed.

Lemma declared_value_within :
  NrnPointProcessParameter.bounds (expsyn_tau_param setup_ns) = [0; 50]
  /\ Z_within (NrnPointProcessParameter.bounds (expsyn_tau_param setup_ns))
              (NrnPointProcessParameter.value (expsyn_tau_param setup_ns)) = true.
Proof. split; reflexivity. Qed.

Lemma tested_value_within :
  map_Forall
    (fun _ x => float_within (NrnPointProcessParameter.bounds (expsyn_tau_param setup_ns)) x = true)
    default_param_values.
Proof.
  unfold default_param_values. apply map_Forall_singleton. vm_compute. reflexivity.
Qed.

Lemma stored_best_within :
  Forall
    (fun x => float_within (NrnPointProcessParameter.bounds (expsyn_tau_param setup_ns)) x = true)
    (Individual.values stored_best_ind).
Proof. repeat constructor. Qed.

(** The bounds are a property of the answer, not of the notebook: an
    engine is free to hand back any individual. *)
Lemma float_within_excludes :
  float_within [0; 50] 50.5%float = false
  /\ float_within [0; 50] (-0.1)%float = false
  /\ float_within [0; 50] nan = false.
Proof. vm_compute. repeat split. Qed.

(** ** The notebook after its set-up, case by case *)

Section Outcome.

Context {Logbook History : Type} (E : Engine Logbook History).

(** In [11] in any kernel: where it stops and what it hands back. *)
Lemma In_11_outcome (ns : Namespace) (hall_of_fame : list Individual.t) k :
  (log (fst (In_11 E ns hall_of_fame k)), snd (In_11 E ns hall_of_fame k)) =
  match hall_of_fame with
  | [] => (log k, Raised IndexError)
  | best_ind :: _ =>
    match param_dict E (cell_evaluator ns) best_ind with
    | Raised e => (log k ++ firstn 3 (skipn 4 closing_steps), Raised e)
    | Ok best_ind_dict =>
      match SweepProtocol_run E (protocol ns) (cell ns) best_ind_dict (nrn_sim ns) with
      | Raised e => (log k ++ firstn 4 (skipn 4 closing_steps), Raised e)
      | Ok responses =>
        match responses !! "soma.v" with
        | None => (log k ++ firstn 4 (skipn 4 closing_steps), Raised (KeyError "soma.v"))
        | Some None => (log k ++ firstn 4 (skipn 4 closing_steps), Raised not_subscriptable)
        | Some (Some soma_v) =>
          match soma_v !! "time" with
          | None => (log k ++ firstn 4 (skipn 4 closing_steps), Raised (KeyError "time"))
          | Some time =>
            match soma_v !! "voltage" with
            | None =>
                (log k ++ firstn 4 (skipn 4 closing_steps), Raised (KeyError "voltage"))
            | Some voltage =>
                (log k ++ skipn 4 closing_steps, Ok (best_ind, time, voltage))
            end
          end
        end
      end
    end
  end.
Proof.
  unfold In_11, subscript_list, subscript_recording, subscript_dict, method, builtin,
    call, import, resolve, bind, emit, lift, ret, raise.
  destruct hall_of_fame as [|best_ind rest]; simpl; [reflexivity |].
  destruct (param_dict E (cell_evaluator ns) best_ind) as [d|e]; simpl;
    [| now rewrite <- !app_assoc].
  destruct (SweepProtocol_run E (protocol ns) (cell ns) d (nrn_sim ns))
    as [responses|e]; simpl; [| now rewrite <- !app_assoc].
  destruct (responses !! "soma.v") as [[soma_v|]|]; simpl;
    [| now rewrite <- !app_assoc | now rewrite <- !app_assoc].
  destruct (soma_v !! "time") as [time|]; simpl; [| now rewrite <- !app_assoc].
  destruct (soma_v !! "voltage") as [voltage|]; simpl;
    [| now rewrite <- !app_assoc].
  repeat (rewrite lookup_insert_eq; simpl).
  now rewrite <- !app_assoc.
Qed.

Lemma In_10_raise (ns : Namespace) k e :
  evaluate_with_dicts E (cell_evaluator ns) default_param_values = Raised e ->
  In_10 E ns k =
  ({| imports := imports k;
      log := log k ++ [Method "ephys" "evaluators.CellEvaluator" "evaluate_with_dicts"] |},
   Raised e).
Proof.
  intros H. unfold In_10, method, builtin, bind, emit, lift, ret. simpl.
  now rewrite H.
Qed.

Lemma In_opt_outcome (ns : Namespace) k m :
  imports k !! "bpopt" = Some m ->
  In_opt E ns k =
  let opt := {| DEAPOptimisation.evaluator := cell_evaluator ns;
                DEAPOptimisation.offspring_size := 10 |} in
  let k' := {| imports := imports k;
               log := (log k ++ [New "bpopt" "optimisations.DEAPOptimisation"])
                      ++ [Method "bpopt" "optimisations.DEAPOptimisation" "run"] |} in
  match DEAPOptimisation_run E opt 5 with
  | Ok (_, hall_of_fame, _, _) => (k', Ok (opt, hall_of_fame))
  | Raised e => (k', Raised e)
  end.
Proof.
  intros H. unfold In_opt, new, method, bind, resolve, emit, lift, ret. simpl.
  rewrite H.
  now destruct (DEAPOptimisation_run E _ 5) as [[[[? ?] ?] ?]|].
Qed.

Lemma bpopt_bound : imports setup_kernel !! "bpopt" = Some "bluepyopt".
Proof. vm_compute. reflexivity. Qed.

(** The whole notebook: where it stops and what it hands back, by the
    answers of the engine. *)
Lemma notebook_outcome :
  (log_of (notebook E), result_of (notebook E)) =
  match evaluate_with_dicts E (cell_evaluator setup_ns) default_param_values with
  | Raised e => (firstn 24 complete_log, Raised e)
  | Ok _ =>
    match DEAPOptimisation_run E optimisation 5 with
    | Raised e => (firstn 27 complete_log, Raised e)
    | Ok (_, [], _, _) => (firstn 27 complete_log, Raised IndexError)
    | Ok (_, best_ind :: _, _, _) =>
      match param_dict E (cell_evaluator setup_ns) best_ind with
      | Raised e => (firstn 30 complete_log, Raised e)
      | Ok best_ind_dict =>
        match SweepProtocol_run E (protocol setup_ns) (cell setup_ns) best_ind_dict
                (nrn_sim setup_ns) with
        | Raised e => (firstn 31 complete_log, Raised e)
        | Ok responses =>
          match responses !! "soma.v" with
          | None => (firstn 31 complete_log, Raised (KeyError "soma.v"))
          | Some None => (firstn 31 complete_log, Raised not_subscriptable)
          | Some (Some soma_v) =>
            match soma_v !! "time" with
            | None => (firstn 31 complete_log, Raised (KeyError "time"))
            | Some time =>
              match soma_v !! "voltage" with
              | None => (firstn 31 complete_log, Raised (KeyError "voltage"))
              | Some voltage => (complete_log, Ok (best_ind, time, voltage))
              end
            end
          end
        end
      end
    end
  end.
Proof.
  unfold log_of, result_of. rewrite notebook_after_setup. unfold after_setup.
  rewrite !bind_assoc.
  destruct (evaluate_with_dicts E (cell_evaluator setup_ns) default_param_values)
    as [scores|e] eqn:Hev.
  2: { now rewrite (bind_Raised _ _ _ _ _ (In_10_raise setup_ns setup_kernel e Hev)). }
  rewrite (bind_Ok _ _ _ _ _ (In_10_run E setup_ns setup_kernel scores Hev)).
  rewrite !bind_assoc.
  match goal with |- context [bind (In_opt E setup_ns) _ ?k] =>
    pose proof (In_opt_outcome setup_ns k "bluepyopt" bpopt_bound) as Hopt
  end.
  cbv zeta in Hopt. fold optimisation in Hopt.
  destruct (DEAPOptimisation_run E optimisation 5)
    as [[[[pop hall_of_fame] logbook] history]|e].
  2: { now rewrite (bind_Raised _ _ _ _ _ Hopt). }
  rewrite (bind_Ok _ _ _ _ _ Hopt), bind_ret_l.
  rewrite In_11_outcome.
  destruct hall_of_fame as [|best_ind rest]; [reflexivity |].
  destruct (param_dict E (cell_evaluator setup_ns) best_ind) as [d|e];
    [| reflexivity].
  destruct (SweepProtocol_run E (protocol setup_ns) (cell setup_ns) d (nrn_sim setup_ns))
    as [responses|e]; [| reflexivity].
  destruct (responses !! "soma.v") as [[soma_v|]|]; [| reflexivity | reflexivity].
  destruct (soma_v !! "time") as [time|]; [| reflexivity].
  destruct (soma_v !! "voltage") as [voltage|]; reflexivity.
Qed.

End Outcome.

(** ** Where the notebook stops *)

Section Stops.

Context {Logbook History : Type} (E : Engine Logbook History).

Ltac outcome_cases H :=
  pose proof (notebook_outcome E) as H;
  repeat match type of H with
         | _ = match ?x with _ => _ end => destruct x eqn:?
         end;
  apply pair_equal_spec in H as [? ?].

(** X1: whatever the engine answers, the statements the notebook executes
    are the first 24, 27, 30, 31 or all 37 statements of a complete run,
    and it executes all of them exactly when it returns. *)
Theorem notebook_stops_on_a_prefix :
  (exists n, n ∈ [24; 27; 30; 31; 37]%nat
             /\ log_of (notebook E) = firstn n complete_log)
  /\ (returned (result_of (notebook E)) <-> log_of (notebook E) = complete_log).
Proof.
  outcome_cases H;
    match goal with
    | Hl : log_of _ = ?l, Hr : result_of _ = _ |- _ => rewrite Hl, Hr; clear Hl Hr
    end.
  all: split;
    [ match goal with
      | |- exists n, _ /\ firstn ?m _ = _ =>
          exists m; split; [repeat constructor | reflexivity]
      | |- _ => exists 37%nat; split; [repeat constructor | vm_compute; reflexivity]
      end
    | split;
      [ intros Hret; first [exfalso; exact Hret | reflexivity]
      | intros Hlog;
        first [ exact I
              | exfalso; apply (f_equal length) in Hlog;
                vm_compute in Hlog; discriminate Hlog ] ] ].
Qed.

(** X2: the notebook returns [(best_ind, time, voltage)] exactly when the
    evaluation returns, the optimiser returns a hall of fame that starts
    with [best_ind], [param_dict] of that individual returns, the protocol
    run on the notebook's cell model with those parameters and the
    notebook's simulator returns, and the responses hold the columns time
    and voltage under soma.v. *)
Theorem notebook_returns_iff (best_ind : Individual.t) (time voltage : list float) :
  result_of (notebook E) = Ok (best_ind, time, voltage) <->
  exists scores population rest logbook history best_ind_dict responses soma_v,
    evaluate_with_dicts E (cell_evaluator setup_ns) default_param_values = Ok scores
    /\ DEAPOptimisation_run E optimisation 5
       = Ok (population, best_ind :: rest, logbook, history)
    /\ param_dict E (cell_evaluator setup_ns) best_ind = Ok best_ind_dict
    /\ SweepProtocol_run E (protocol setup_ns) (cell setup_ns) best_ind_dict
         (nrn_sim setup_ns) = Ok responses
    /\ responses !! "soma.v" = Some (Some soma_v)
    /\ soma_v !! "time" = Some time
    /\ soma_v !! "voltage" = Some voltage.
Proof.
  split.
  - intros Hres. outcome_cases H;
      match goal with
      | Hr : result_of _ = _ |- _ => rewrite Hr in Hres
      end; try discriminate Hres.
    injection Hres as -> -> ->.
    repeat eexists; eassumption.
  - intros (scores & population & rest & logbook & history & d & responses
            & soma_v & H1 & H2 & H3 & H4 & H5 & H6 & H7).
    pose proof (notebook_outcome E) as H.
    rewrite H1, H2, H3, H4, H5, H6, H7 in H.
    now apply pair_equal_spec in H as [_ ->].
Qed.

(** X3: when the evaluation of In [10] raises, the notebook stops with
    that error right after the call: nothing is printed and nothing of the
    optimiser stage is executed. *)
Theorem evaluation_error_stops_the_notebook (e : PyError) :
  evaluate_with_dicts E (cell_evaluator setup_ns) default_param_values = Raised e ->
  result_of (notebook E) = Raised e
  /\ log_of (notebook E)
     = log setup_kernel
       ++ [Method "ephys" "evaluators.CellEvaluator" "evaluate_with_dicts"]
  /\ Forall (fun ev => stage_of ev <> Some Optimiser) (log_of (notebook E)).
Proof.
  intros Hev. pose proof (notebook_outcome E) as H. rewrite Hev in H.
  apply pair_equal_spec in H as [Hl Hr]. rewrite Hl, Hr.
  repeat apply conj; [reflexivity | reflexivity |].
  vm_compute. repeat constructor; discriminate.
Qed.

(** X4: when the optimiser returns an empty hall of fame, [hall_of_fame[0]]
    raises IndexError and the notebook stops right after the optimiser's
    run: neither [param_dict] nor the protocol is called and nothing is
    plotted. *)
Theorem empty_hall_of_fame_raises population logbook history :
  returned (evaluate_with_dicts E (cell_evaluator setup_ns) default_param_values) ->
  DEAPOptimisation_run E optimisation 5 = Ok (population, [], logbook, history) ->
  result_of (notebook E) = Raised IndexError
  /\ log_of (notebook E) = log_of In_1 ++ pipeline_steps.
Proof.
  intros Hev Hrun. pose proof (notebook_outcome E) as H.
  destruct (evaluate_with_dicts E _ _); [| destruct Hev].
  rewrite Hrun in H. apply pair_equal_spec in H as [Hl Hr]. rewrite Hl, Hr.
  split; reflexivity.
Qed.

(** X5: when the protocol run of the last cell returns responses the cell
    cannot read, the notebook raises at the first subscript that fails:
    KeyError for soma.v when that recording is absent, TypeError when the
    recording is [None] (the simulation produced no trace), KeyError for
    time or for voltage when the recording lacks that column, in this
    order; and whenever the notebook does not return, nothing is
    plotted. *)
Theorem unreadable_responses_raise scores population best_ind rest logbook
    history best_ind_dict responses :
  evaluate_with_dicts E (cell_evaluator setup_ns) default_param_values = Ok scores ->
  DEAPOptimisation_run E optimisation 5
  = Ok (population, best_ind :: rest, logbook, history) ->
  param_dict E (cell_evaluator setup_ns) best_ind = Ok best_ind_dict ->
  SweepProtocol_run E (protocol setup_ns) (cell setup_ns) best_ind_dict
    (nrn_sim setup_ns) = Ok responses ->
  (responses !! "soma.v" = None ->
   result_of (notebook E) = Raised (KeyError "soma.v"))
  /\ (responses !! "soma.v" = Some None ->
      result_of (notebook E) = Raised not_subscriptable)
  /\ (forall soma_v, responses !! "soma.v" = Some (Some soma_v) ->
      soma_v !! "time" = None ->
      result_of (notebook E) = Raised (KeyError "time"))
  /\ (forall soma_v, responses !! "soma.v" = Some (Some soma_v) ->
      is_Some (soma_v !! "time") -> soma_v !! "voltage" = None ->
      result_of (notebook E) = Raised (KeyError "voltage"))
  /\ (~ returned (result_of (notebook E)) ->
      Forall (fun ev => plots ev = false) (log_of (notebook E))).
Proof.
  intros H1 H2 H3 H4. pose proof (notebook_outcome E) as H.
  rewrite H1, H2, H3, H4 in H.
  repeat apply conj.
  - intros H5. rewrite H5 in H. now apply pair_equal_spec in H as [_ ->].
  - intros H5. rewrite H5 in H. now apply pair_equal_spec in H as [_ ->].
  - intros soma_v H5 H6. rewrite H5, H6 in H. now apply pair_equal_spec in H as [_ ->].
  - intros soma_v H5 [time H6] H7. rewrite H5, H6, H7 in H.
    now apply pair_equal_spec in H as [_ ->].
  - intros Hnot.
    destruct (responses !! "soma.v") as [[soma_v|]|];
      [destruct (soma_v !! "time"); [destruct (soma_v !! "voltage") |] | |];
      apply pair_equal_spec in H as [Hl Hr]; rewrite Hl; rewrite Hr in Hnot;
      first [ exfalso; apply Hnot; exact I
            | vm_compute; repeat constructor ].
Qed.


End Stops.

Lemma evaluation_error_stops_the_notebook_witness :
  evaluate_with_dicts failing_evaluation (cell_evaluator setup_ns) default_param_values
  = Raised (RuntimeError "evaluation failed")
  /\ result_of (notebook failing_evaluation) = Raised (RuntimeError "evaluation failed").
Proof.
  split; [reflexivity |].
  apply (evaluation_error_stops_the_notebook failing_evaluation). reflexivity.
Defined.

Lemma empty_hall_of_fame_raises_witness :
  returned (evaluate_with_dicts empty_hall_of_fame (cell_evaluator setup_ns)
              default_param_values)
  /\ DEAPOptimisation_run empty_hall_of_fame optimisation 5 = Ok ([], [], tt, tt)
  /\ result_of (notebook empty_hall_of_fame) = Raised IndexError.
Proof.
  split; [exact I |]. split; [reflexivity |].
  apply (empty_hall_of_fame_raises empty_hall_of_fame [] tt tt); [exact I | reflexivity].
Defined.

Lemma unreadable_responses_raise_witness :
  evaluate_with_dicts failed_simulation (cell_evaluator setup_ns) default_param_values
  = Ok stored_scores
  /\ DEAPOptimisation_run failed_simulation optimisation 5
     = Ok ([], [stored_best_ind], tt, tt)
  /\ param_dict failed_simulation (cell_evaluator setup_ns) stored_best_ind
     = Ok (list_to_map (zip ["expsyn_tau"] (Individual.values stored_best_ind)))
  /\ SweepProtocol_run failed_simulation (protocol setup_ns) (cell setup_ns)
       (list_to_map (zip ["expsyn_tau"] (Individual.values stored_best_ind)))
       (nrn_sim setup_ns) = Ok {[ "soma.v" := None ]}
  /\ result_of (notebook failed_simulation) = Raised not_subscriptable.
Proof.
  repeat (split; [reflexivity |]).
  apply (unreadable_responses_raise failed_simulation stored_scores [] stored_best_ind
           [] tt tt
           (list_to_map (zip ["expsyn_tau"] (Individual.values stored_best_ind)))
           {[ "soma.v" := None ]});
    reflexivity.
Defined.


(** ** Cells and the kernel they run in *)

(** X7: run in a kernel where ephys is not imported, each of In [2] to
    In [9] raises NameError for ephys at its first statement that names
    the library and logs nothing. *)
Theorem cells_need_ephys (k : Kernel) :
  imports k !! "ephys" = None ->
  In_2 k = (k, Raised (NameError "ephys"))
  /\ (forall somatic_loc, In_3 somatic_loc k = (k, Raised (NameError "ephys")))
  /\ (forall somacenter_loc, In_4 somacenter_loc k = (k, Raised (NameError "ephys")))
  /\ (forall expsyn_mech, In_5 expsyn_mech k = (k, Raised (NameError "ephys")))
  /\ (forall expsyn_loc, In_6 expsyn_loc k = (k, Raised (NameError "ephys")))
  /\ (forall morph pas_mech expsyn_mech expsyn_tau_param,
        In_7 morph pas_mech expsyn_mech expsyn_tau_param k
        = (k, Raised (NameError "ephys")))
  /\ (forall expsyn_loc somacenter_loc,
        In_8 expsyn_loc somacenter_loc k = (k, Raised (NameError "ephys")))
  /\ (forall stim_start stim_end cell protocol nrn_sim,
        In_9 stim_start stim_end cell protocol nrn_sim k
        = (k, Raised (NameError "ephys"))).
Proof.
  intros H. repeat apply conj; intros;
    unfold In_2, In_3, In_4, In_5, In_6, In_7, In_8, In_9, new, bind, resolve;
    simpl; now rewrite H.
Qed.

Lemma cells_need_ephys_witness :
  imports fresh_kernel !! "ephys" = None
  /\ In_2 fresh_kernel = (fresh_kernel, Raised (NameError "ephys")).
Proof.
  split; [reflexivity |].
  apply (cells_need_ephys fresh_kernel). reflexivity.
Defined.

Section Kernels.

Context {Logbook History : Type} (E : Engine Logbook History).

(** X8: run in a kernel where bpopt is not imported, the optimisation cell
    raises NameError for bpopt before anything is logged, whatever the
    optimiser would have answered. *)
Theorem optimisation_needs_bpopt (ns : Namespace) (k : Kernel) :
  imports k !! "bpopt" = None ->
  In_opt E ns k = (k, Raised (NameError "bpopt")).
Proof.
  intros H. unfold In_opt, new, bind, resolve. simpl. now rewrite H.
Qed.

(** X9: In [11] imports pyplot itself before it plots, so what it logs
    and what it hands back do not depend on the modules the kernel has
    imported, not even on In [1] having run. *)
Theorem In_11_needs_no_imports (ns : Namespace) (hall_of_fame : list Individual.t) :
  exists steps result, forall k,
    log (fst (In_11 E ns hall_of_fame k)) = log k ++ steps
    /\ snd (In_11 E ns hall_of_fame k) = result.
Proof.
  pose proof (In_11_outcome E ns hall_of_fame) as H.
  repeat match type of H with
         | forall k, _ = match ?x with _ => _ end => destruct x
         end.
  all: eexists; eexists; intros k; specialize (H k);
    apply pair_equal_spec in H as [Hl Hr]; rewrite Hl, Hr;
    split; [| reflexivity];
    first [reflexivity | symmetry; apply app_nil_r].
Qed.

End Kernels.

Lemma optimisation_needs_bpopt_witness :
  imports fresh_kernel !! "bpopt" = None
  /\ In_opt replay setup_ns fresh_kernel = (fresh_kernel, Raised (NameError "bpopt")).
Proof.
  split; [reflexivity |].
  apply (optimisation_needs_bpopt replay setup_ns fresh_kernel). reflexivity.
Defined.

Lemma new_run {T : Type} `{PyClass T} (obj : T) k m :
  imports k !! fst (py_class T) = Some m ->
  new obj k =
  ({| imports := imports k;
      log := log k ++ [New (fst (py_class T)) (snd (py_class T))] |}, Ok obj).
Proof.
  intros Hm. unfold new, bind, resolve, emit, ret. now rewrite Hm.
Qed.

Lemma new_in {T : Type} `{PyClass T} (obj : T) imp l m :
  imp !! fst (py_class T) = Some m ->
  new obj {| imports := imp; log := l |} =
  ({| imports := imp; log := l ++ [New (fst (py_class T)) (snd (py_class T))] |},
   Ok obj).
Proof. intros Hm. exact (new_run obj {| imports := imp; log := l |} m Hm). Qed.

Lemma bind_runs {A B : Type} (m : NB A) (f : A -> NB B) k k' a r :
  m k = (k', Ok a) -> f a k' = r -> bind m f k = r.
Proof. intros Hm <-. now apply bind_Ok. Qed.

Ltac run_cell Hephys :=
  lazymatch goal with
  | |- bind _ _ _ = _ =>
      eapply bind_runs; [run_cell Hephys | cbv beta iota zeta; run_cell Hephys]
  | |- new _ _ = _ => eapply new_in; exact Hephys
  | |- ret _ _ = _ => reflexivity
  | |- In_2 _ = _ => unfold In_2; run_cell Hephys
  | |- In_3 _ _ = _ => unfold In_3; run_cell Hephys
  | |- In_4 _ _ = _ => unfold In_4; run_cell Hephys
  | |- In_5 _ _ = _ => unfold In_5; run_cell Hephys
  | |- In_6 _ _ = _ => unfold In_6; run_cell Hephys
  | |- In_7 _ _ _ _ _ = _ => unfold In_7; run_cell Hephys
  | |- In_8 _ _ _ = _ => unfold In_8; cbv zeta; run_cell Hephys
  | |- In_9 _ _ _ _ _ _ = _ => unfold In_9; run_cell Hephys
  end.

(** X10: started in any kernel, In [1] to In [9] never raise, build the
    same objects, log the same 23 statements after whatever was logged, and
    rebind the four module names on top of the kernel's imports. *)
Theorem setup_in_any_kernel (k : Kernel) :
  snd (setup k) = Ok setup_ns
  /\ log (fst (setup k)) = log k ++ log setup_kernel
  /\ imports (fst (setup k))
     = <["ephys" := "bluepyopt.ephys"]>
         (<["bpopt" := "bluepyopt"]>
            (<["os" := "os"]> (<["plt" := "matplotlib.pyplot"]> (imports k)))).
Proof.
  set (imp := <["ephys" := "bluepyopt.ephys"]> _).
  assert (Hephys : imp !! "ephys" = Some "bluepyopt.ephys")
    by apply lookup_insert_eq.
  assert (H1 : In_1 k = ({| imports := imp; log := log k ++ log_of In_1 |}, Ok tt)).
  { unfold In_1, magic, import, bind, emit. simpl.
    now rewrite <- !app_assoc. }
  assert (Hrun : exists K ns,
             setup k = (K, Ok ns)
             /\ imports K = imp
             /\ log K = log k ++ log setup_kernel
             /\ ns = setup_ns).
  { eexists. eexists. split.
    - unfold setup. eapply bind_runs; [exact H1 |]. run_cell Hephys.
    - repeat apply conj.
      + reflexivity.
      + cbn [log]. rewrite <- !app_assoc. reflexivity.
      + vm_compute. reflexivity. }
  destruct Hrun as (K & ns & -> & HK & Hlog & ->).
  repeat apply conj; assumption || reflexivity.
Qed.

(** ** The licence list, entry by entry *)

(** X11: every entry of the list names at least one author and says where
    the model comes from in one of two ways: by a ModelDB accession number
    together with an original URL and no publications, or by publications
    with neither accession number nor URL. *)
Theorem every_entry_is_traceable (i : nat) (e : Licence.Entry) :
  Licence.modeldb_list !! i = Some e ->
  Licence.authors e <> []
  /\ ((is_Some (Licence.accession e) /\ is_Some (Licence.original_url e)
       /\ Licence.publications e = None)
      \/ (Licence.accession e = None /\ Licence.original_url e = None
          /\ is_Some (Licence.publications e))).
Proof.
  intros Hi.
  destruct i as [|[|[|[|[|[|[|[|i]]]]]]]]; cbn in Hi; try discriminate Hi.
  all: injection Hi as <-.
  all: split; [discriminate |].
  all: first [ left; repeat split; eexists; reflexivity
             | right; repeat split; eexists; reflexivity ].
Qed.

Lemma every_entry_is_traceable_witness :
  Licence.modeldb_list !! 7%nat = Some Licence.TC_Ih_Bud97
  /\ Licence.authors Licence.TC_Ih_Bud97 <> [].
Proof.
  split; [reflexivity |].
  apply (every_entry_is_traceable 7 Licence.TC_Ih_Bud97). reflexivity.
Defined.

(** X12: every original URL of the list is a ModelDB address at
    senselab.med.yale.edu that asks for the model of the entry's own
    accession number and points to a .mod file of it. *)
Theorem url_names_the_accession (i : nat) (e : Licence.Entry) (n : Z) (url : string) :
  Licence.modeldb_list !! i = Some e ->
  Licence.accession e = Some n ->
  Licence.original_url e = Some url ->
  String.prefix "https://senselab.med.yale.edu/" url = true
  /\ Licence.mentions (String.append "ShowModel.cshtml?model="
                         (String.append (pretty n) "&file=/")) url = true
  /\ Licence.mentions ".mod#tabs-2" url = true.
Proof.
  intros Hi Hn Hurl.
  destruct i as [|[|[|[|[|[|[|[|i]]]]]]]]; cbn in Hi; try discriminate Hi.
  all: injection Hi as <-.
  all: try discriminate Hn.
  all: injection Hn as <-; injection Hurl as <-.
  all: vm_compute; repeat split.
Qed.

Lemma url_names_the_accession_witness :
  Licence.modeldb_list !! 5%nat = Some Licence.TC_iL
  /\ Licence.accession Licence.TC_iL = Some 3808
  /\ Licence.original_url Licence.TC_iL
     = Some "https://senselab.med.yale.edu/modeldb/ShowModel.cshtml?model=3808&file=/MyFirstNEURON/il.mod#tabs-2"
  /\ String.prefix "https://senselab.med.yale.edu/"
       "https://senselab.med.yale.edu/modeldb/ShowModel.cshtml?model=3808&file=/MyFirstNEURON/il.mod#tabs-2"
     = true.
Proof.
  repeat (split; [reflexivity |]).
  apply (url_names_the_accession 5 Licence.TC_iL 3808
           "https://senselab.med.yale.edu/modeldb/ShowModel.cshtml?model=3808&file=/MyFirstNEURON/il.mod#tabs-2");
    reflexivity.
Defined.

(** ** The pipeline, its parts and who computes *)

Section Pipeline.

Context {Logbook History : Type} (E : Engine Logbook History).






End Pipeline.







